(** * Token server (src/server/token_server.py): credential issuance

    A shallow embedding of the FastAPI token server.  The server reads three
    settings from the process environment, classifies the failures of the
    LiveKit room-creation call by the text of the exception, and answers
    POST /token and POST /rooms.

    What the embedding keeps from the source:
    - [os.getenv(key, default)] over the environment, a finite map;
    - Python truthiness of strings ([_require_config], [body.name or ...]);
    - [str.lower] and the substring test [in] of [_ensure_room];
    - exceptions: a handler either returns a value or raises;
    - the two calls into the LiveKit SDK ([create_room] inside the [try],
      [to_jwt]) as an interface, with every call recorded in a trace. *)

From Stdlib Require Import ZArith Bool Ascii String List Lia.
From stdpp Require Import base option strings list gmap.

Local Open Scope Z_scope.

(** ** Python strings *)

Module PyStr.

(** Truthiness of a [str]: only the empty string is falsy. *)
Definition truthy (s : string) : bool :=
  match s with
  | EmptyString => false
  | String _ _ => true
  end.

(** [a or b] where [a] is an [Optional[str]] and [b] a [str]: [None] and
    the empty string are both falsy. *)
Definition or_else (a : option string) (b : string) : string :=
  match a with
  | Some s => if truthy s then s else b
  | None => b
  end.

(** [str.lower] on one character: the letters A..Z move to a..z, every
    other character is left alone.  A string is a sequence of 8-bit
    characters here; Python also lowers capitals outside ASCII, and none of
    those yields an ASCII run that could complete the word "exists". *)
Definition lower_char (c : ascii) : ascii :=
  let n := N_of_ascii c in
  if (65 <=? n)%N && (n <=? 90)%N then ascii_of_N (n + 32) else c.

Fixpoint lower (s : string) : string :=
  match s with
  | EmptyString => EmptyString
  | String c s' => String (lower_char c) (lower s')
  end.

(** [hay.startswith(needle)]. *)
Fixpoint startswith (needle hay : string) : bool :=
  match needle, hay with
  | EmptyString, _ => true
  | String _ _, EmptyString => false
  | String a n', String b h' =>
      if Ascii.eqb a b then startswith n' h' else false
  end.

(** [needle in hay]. *)
Fixpoint contains (needle hay : string) : bool :=
  startswith needle hay ||
  match hay with
  | EmptyString => false
  | String _ h' => contains needle h'
  end.

(** The relational reading of [in]: [hay] splits around [needle]. *)
Definition substring_of (needle hay : string) : Prop :=
  exists pre post, hay = pre +:+ needle +:+ post.

End PyStr.

(** ** Configuration (lines 16-20) *)

(** [os.environ] once [load_dotenv()] has run. *)
Definition getenv (environ : gmap string string) (key dflt : string) : string :=
  default dflt (environ !! key).

Record Config := mkConfig {
  LIVEKIT_URL : string;
  LIVEKIT_API_KEY : string;
  LIVEKIT_API_SECRET : string
}.

Definition load_config (environ : gmap string string) : Config :=
  {| LIVEKIT_URL := getenv environ "LIVEKIT_URL" "ws://localhost:7880";
     LIVEKIT_API_KEY := getenv environ "LIVEKIT_API_KEY" "devkey";
     LIVEKIT_API_SECRET := getenv environ "LIVEKIT_API_SECRET" "secret" |}.

(** ** Request models (lines 23-31) *)

Record TokenRequest := mkTokenRequest {
  room : string;
  identity : string;
  name : option string;
  auto_create_room : bool
}.

Record RoomCreateRequest := mkRoomCreateRequest {
  rc_name : string
}.

(** The JSON body before pydantic has looked at it: a field is absent
    ([None]) or carries a value of the declared type.  A JSON [null] for
    [name] and an absent [name] both read as [None]. *)
Record TokenBody := mkTokenBody {
  json_room : option string;
  json_identity : option string;
  json_name : option string;
  json_auto_create_room : option bool
}.


(** ** The LiveKit SDK objects the handlers build (lines 84-97) *)

Record VideoGrants := mkVideoGrants {
  room_join : bool;
  vg_room : string;
  can_publish : bool;
  can_subscribe : bool;
  can_publish_data : bool
}.

Record AccessToken := mkAccessToken {
  api_key : string;
  api_secret : string;
  at_identity : string;
  at_name : string;
  at_grants : option VideoGrants
}.

Definition AccessToken_new (key secret : string) : AccessToken :=
  {| api_key := key; api_secret := secret;
     at_identity := ""; at_name := ""; at_grants := None |}.

Definition with_identity (i : string) (t : AccessToken) : AccessToken :=
  {| api_key := api_key t; api_secret := api_secret t;
     at_identity := i; at_name := at_name t; at_grants := at_grants t |}.

Definition with_name (n : string) (t : AccessToken) : AccessToken :=
  {| api_key := api_key t; api_secret := api_secret t;
     at_identity := at_identity t; at_name := n; at_grants := at_grants t |}.

Definition with_grants (g : VideoGrants) (t : AccessToken) : AccessToken :=
  {| api_key := api_key t; api_secret := api_secret t;
     at_identity := at_identity t; at_name := at_name t; at_grants := Some g |}.

(** ** Exceptions and handler results *)

(** The exceptions that leave a handler.  FastAPI answers an [HTTPException]
    with its status code and detail, a [RequestValidationError] with 422 and
    anything else with 500. *)
Inductive exn :=
| HTTPException (status_code : Z) (detail : string)
| RequestValidationError (missing : list string)
| Exception (msg : string).

Inductive Result (A : Type) :=
| Ok (a : A)
| Raise (e : exn).
Arguments Ok {A} a.
Arguments Raise {A} e.

(** What a call into the SDK does: it returns, or it raises an exception
    (an [Exception], the kind [except Exception] catches) of which the
    server only ever reads [str(exc)]. *)
Inductive outcome (A : Type) :=
| Returned (a : A)
| Raised (str_exc : string).
Arguments Returned {A} a.
Arguments Raised {A} str_exc.

(** ** The LiveKit SDK as an interface

    [World] is everything outside the server process: the media server, the
    network, the clock.  [sdk_create_room] stands for the whole body of the
    [try] of [_ensure_room] (open the API client, [create_room], close it);
    [sdk_to_jwt] for [AccessToken.to_jwt]. *)
Class LiveKit (World : Type) := {
  sdk_create_room : string -> World -> outcome unit * World;
  sdk_to_jwt : AccessToken -> World -> outcome string
}.

(** The calls a handler made, oldest first. *)
Inductive Event :=
| CreateRoomCall (room_name : string)
| SignCall (t : AccessToken).

Record State (World : Type) := mkState {
  world : World;
  trace : list Event
}.
Arguments mkState {World} world trace.
Arguments world {World} s.
Arguments trace {World} s.

Definition Handler (World A : Type) : Type :=
  State World -> Result A * State World.

Definition ret {World A} (a : A) : Handler World A :=
  fun st => (Ok a, st).

Definition raise {World A} (e : exn) : Handler World A :=
  fun st => (Raise e, st).

Definition bind {World A B} (m : Handler World A) (k : A -> Handler World B)
  : Handler World B :=
  fun st =>
    match m st with
    | (Ok a, st') => k a st'
    | (Raise e, st') => (Raise e, st')
    end.

Declare Scope handler_scope.
Delimit Scope handler_scope with handler.
Notation "x <- m ;;; k" := (bind m (fun x => k))
  (at level 100, m at next level, right associativity) : handler_scope.
Notation "m ;;; k" := (bind m (fun _ => k))
  (at level 100, right associativity) : handler_scope.

(** ** Responses *)

Record TokenResponse := mkTokenResponse {
  resp_token : string;
  resp_url : string;
  resp_identity : string;
  resp_room : string
}.

Record RoomResponse := mkRoomResponse {
  rr_room : string;
  rr_created : bool
}.

Definition config_error : exn :=
  HTTPException 500
    "LIVEKIT_URL, LIVEKIT_API_KEY, and LIVEKIT_API_SECRET must be set".

Definition provisioning_error (str_exc : string) : exn :=
  HTTPException 500 ("Failed to create room: " +:+ str_exc).

(** The test of line 65 on [msg = str(exc).lower()]. *)
Definition says_exists (str_exc : string) : bool :=
  let msg := PyStr.lower str_exc in
  PyStr.contains "already exists" msg || PyStr.contains "exists" msg.

(** pydantic on the two request models: a field declared with [...] must be
    present; [name] defaults to [None], [auto_create_room] to [True].  No
    field carries a length constraint. *)
Definition validate_TokenRequest (b : TokenBody) : list string + TokenRequest :=
  match json_room b, json_identity b with
  | Some r, Some i =>
      inr {| room := r; identity := i; name := json_name b;
             auto_create_room := default true (json_auto_create_room b) |}
  | None, Some _ => inl ["room"]
  | Some _, None => inl ["identity"]
  | None, None => inl ["room"; "identity"]
  end.


(** The grant and the token of lines 84-97. *)
Definition grants_for (body : TokenRequest) : VideoGrants :=
  {| room_join := true;
     vg_room := room body;
     can_publish := true;
     can_subscribe := true;
     can_publish_data := true |}.

Definition token_for (cfg : Config) (body : TokenRequest) : AccessToken :=
  with_grants (grants_for body)
    (with_name (PyStr.or_else (name body) (identity body))
       (with_identity (identity body)
          (AccessToken_new (LIVEKIT_API_KEY cfg) (LIVEKIT_API_SECRET cfg)))).

(** The condition of line 51: [LIVEKIT_URL and LIVEKIT_API_KEY and
    LIVEKIT_API_SECRET], read as a truth value. *)
Definition configured (cfg : Config) : bool :=
  PyStr.truthy (LIVEKIT_URL cfg)
  && PyStr.truthy (LIVEKIT_API_KEY cfg)
  && PyStr.truthy (LIVEKIT_API_SECRET cfg).

Section Server.
Context {World : Type} `{LiveKit World}.
Variable cfg : Config.

Local Open Scope handler_scope.

(** The SDK calls, each one recorded. *)
Definition call_create_room (room_name : string)
  : State World -> outcome unit * State World :=
  fun st =>
    let '(r, w) := sdk_create_room room_name (world st) in
    (r, mkState w (trace st ++ [CreateRoomCall room_name])).

Definition call_to_jwt (t : AccessToken) : Handler World string :=
  fun st =>
    let st' := mkState (world st) (trace st ++ [SignCall t]) in
    match sdk_to_jwt t (world st) with
    | Returned jwt => (Ok jwt, st')
    | Raised str_exc => (Raise (Exception str_exc), st')
    end.

(** Lines 50-55. *)
Definition _require_config : Handler World unit :=
  if negb (configured cfg) then raise config_error else ret tt.

(** Lines 58-67. *)
Definition _ensure_room (room_name : string) : Handler World unit :=
  fun st =>
    match call_create_room room_name st with
    | (Returned _, st') => (Ok tt, st')
    | (Raised str_exc, st') =>
        if says_exists str_exc
        then (Ok tt, st')
        else (Raise (provisioning_error str_exc), st')
    end.

(** Lines 76-104. *)
Definition get_token (body : TokenRequest) : Handler World TokenResponse :=
  _require_config ;;;
  (if auto_create_room body then _ensure_room (room body) else ret tt) ;;;
  jwt <- call_to_jwt (token_for cfg body) ;;;
  ret {| resp_token := jwt;
         resp_url := LIVEKIT_URL cfg;
         resp_identity := identity body;
         resp_room := room body |}.

(** Lines 107-112. *)
Definition create_room (body : RoomCreateRequest) : Handler World RoomResponse :=
  _require_config ;;;
  _ensure_room (rc_name body) ;;;
  ret {| rr_room := rc_name body; rr_created := true |}.

(** The two routes: FastAPI validates the body, then runs the handler. *)
Definition post_token (b : TokenBody) : Handler World TokenResponse :=
  match validate_TokenRequest b with
  | inl missing => raise (RequestValidationError missing)
  | inr body => get_token body
  end.


End Server.

(** ** Two media platforms to run the handlers on *)

(** A platform that remembers its rooms and refuses to create one twice. *)
Module Strict.

Definition duplicate_message : string := "room already exists".

Definition create (room_name : string) (rooms : gset string)
  : outcome unit * gset string :=
  if decide (room_name ∈ rooms)
  then (Raised duplicate_message, rooms)
  else (Returned tt, {[room_name]} ∪ rooms).

(** A stand-in for the signed token: three dot-separated segments. *)
Definition jwt_of (t : AccessToken) : string :=
  "hs256." +:+ at_identity t +:+ "." +:+ api_key t.

#[global] Instance platform : LiveKit (gset string) := {|
  sdk_create_room := create;
  sdk_to_jwt := fun t _ => Returned (jwt_of t)
|}.

End Strict.

(** A platform that plays back a script: each call to the room service
    consumes the next outcome (and succeeds once the script is over); the
    signer refuses a joining token with an empty identity or room. *)
Module Scripted.

Definition create (room_name : string) (script : list (outcome unit))
  : outcome unit * list (outcome unit) :=
  match script with
  | [] => (Returned tt, [])
  | o :: rest => (o, rest)
  end.

Definition joinable (t : AccessToken) : bool :=
  match at_grants t with
  | Some g =>
      negb (room_join g)
      || (PyStr.truthy (at_identity t) && PyStr.truthy (vg_room g))
  | None => true
  end.

Definition to_jwt (t : AccessToken) (script : list (outcome unit))
  : outcome string :=
  if joinable t
  then Returned (Strict.jwt_of t)
  else Raised "identity and room must be set when joining a room".

#[global] Instance platform : LiveKit (list (outcome unit)) := {|
  sdk_create_room := create;
  sdk_to_jwt := to_jwt
|}.

End Scripted.

(** ** Sample requests and trace predicates used in the statements *)

(** The state a request starts from on each of the two platforms. *)
Definition fresh_strict : State (gset string) := mkState ∅ [].

Definition scripted (script : list (outcome unit))
  : State (list (outcome unit)) :=
  mkState script [].

(** An environment that sets the secret to the empty string. *)
Definition empty_secret_environ : gmap string string :=
  {["LIVEKIT_API_SECRET" := ""]}.

Definition standup_u1 (auto : bool) : TokenRequest :=
  {| room := "standup"; identity := "u1"; name := None;
     auto_create_room := auto |}.

Definition standup_u1_body : TokenBody :=
  {| json_room := Some "standup"; json_identity := Some "u1";
     json_name := None; json_auto_create_room := None |}.

Definition empty_identity_body : TokenBody :=
  {| json_room := Some "standup"; json_identity := Some "";
     json_name := None; json_auto_create_room := Some false |}.

Definition empty_room_body : TokenBody :=
  {| json_room := Some ""; json_identity := Some "u1";
     json_name := None; json_auto_create_room := Some false |}.

(** Whether an event is a call to the signer. *)
Definition is_sign (e : Event) : bool :=
  match e with
  | SignCall _ => true
  | CreateRoomCall _ => false
  end.

(** An event is either a room-service call or the signing of [t]. *)
Definition signs_only (t : AccessToken) (e : Event) : Prop :=
  match e with
  | SignCall t' => t' = t
  | CreateRoomCall _ => True
  end.

(** The platform model of the claim: the platform knows which rooms exist;
    creating an absent room succeeds and makes it exist; creating an
    existing room raises an exception whose text holds "already exists"
    and leaves it in place. *)
Class DuplicateRejecting (World : Type) `{LiveKit World} := {
  has_room : World -> string -> bool;
  create_absent : forall w room_name,
    has_room w room_name = false ->
    exists w', sdk_create_room room_name w = (Returned tt, w') /\
               has_room w' room_name = true;
  create_present : forall w room_name,
    has_room w room_name = true ->
    exists str_exc w',
      sdk_create_room room_name w = (Raised str_exc, w') /\
      PyStr.substring_of "already exists" str_exc /\
      has_room w' room_name = true
}.

Definition strict_has_room (rooms : gset string) (room_name : string) : bool :=
  bool_decide (room_name ∈ rooms).

(** An event that, when it is a signing, signs with a key and a secret that
    are not empty. *)
Definition signs_with_credentials (e : Event) : Prop :=
  match e with
  | SignCall t => api_key t <> "" /\ api_secret t <> ""
  | CreateRoomCall _ => True
  end.

(** The calls [get_token] can add to the trace, by the flag. *)
Definition provisioning_calls (body : TokenRequest) : list Event :=
  if auto_create_room body then [CreateRoomCall (room body)] else [].

(** Every way [get_token] can end, with the state it leaves. *)
Section TokenEndings.
Context {World : Type} `{LiveKit World}.

Inductive get_token_end (cfg : Config) (body : TokenRequest) (st : State World)
  : Result TokenResponse * State World -> Prop :=
| end_unconfigured :
    configured cfg = false ->
    get_token_end cfg body st (Raise config_error, st)
| end_provisioning str_exc st1 :
    configured cfg = true ->
    auto_create_room body = true ->
    says_exists str_exc = false ->
    trace st1 = trace st ++ [CreateRoomCall (room body)] ->
    get_token_end cfg body st (Raise (provisioning_error str_exc), st1)
| end_signer_raised str_exc st1 :
    configured cfg = true ->
    trace st1 = trace st ++ provisioning_calls body ->
    sdk_to_jwt (token_for cfg body) (world st1) = Raised str_exc ->
    get_token_end cfg body st
      (Raise (Exception str_exc),
       mkState (world st1) (trace st1 ++ [SignCall (token_for cfg body)]))
| end_signed jwt st1 :
    configured cfg = true ->
    trace st1 = trace st ++ provisioning_calls body ->
    sdk_to_jwt (token_for cfg body) (world st1) = Returned jwt ->
    get_token_end cfg body st
      (Ok {| resp_token := jwt; resp_url := LIVEKIT_URL cfg;
             resp_identity := identity body; resp_room := room body |},
       mkState (world st1) (trace st1 ++ [SignCall (token_for cfg body)])).

End TokenEndings.

(** * Voice agent (src/server/agent.py): the job entry point

    [entrypoint] connects, builds the assistant and its four engines, then
    starts the session, asks for a greeting and sleeps in a loop for ever,
    inside a [try] with an [except Exception] and a [finally].  The objects
    the constructors return are opaque to the entry point, which only passes
    them on; the model keeps the calls, the literal arguments they are given
    and the order they are made in. *)

(** How a call ends when it does not return.  [except Exception] catches
    what derives from [Exception]; the cancellation of the task
    ([asyncio.CancelledError]) and [KeyboardInterrupt] do not and pass
    through an [except Exception]. *)
Inductive raised :=
| PyException (str_exc : string)
| PyBaseException (str_exc : string).

(** The calls [entrypoint] makes into the LiveKit agents SDK, its plugins
    and asyncio (lines 58-107). *)
Inductive Call :=
| Connect
| NewAgent (instructions : string)
| NewSTT (model_id language_code : string) (tag_audio_events : bool)
| NewLLM (model : string)
| NewTTS (voice model : string)
| LoadVAD
| NewSession
| SessionStart
| GenerateReply (instructions : string)
| Sleep (seconds : Z).

Inductive AgentEvent :=
| Called (c : Call)
| LogInfo (msg : string)
| LogError (msg : string).

(** The world answers each call: [None] when it returns. *)
Class AgentSDK (World : Type) := {
  sdk_call : Call -> World -> option raised * World
}.

Record AgentState (World : Type) := mkAgentState {
  a_world : World;
  a_trace : list AgentEvent
}.
Arguments mkAgentState {World} a_world a_trace.
Arguments a_world {World} a.
Arguments a_trace {World} a.

(** How [entrypoint] ends, when it ends. *)
Inductive Exit :=
| Returns
| Propagates (r : raised).

(** Lines 33-52. *)
Definition assistant_instructions : string :=
"You are ALIAS, an intelligent executive assistant.

You help professionals with:
- Task management and prioritization
- Meeting preparation and follow-ups
- Research and information synthesis
- Decision support and analysis
- Calendar and schedule optimization

Your communication style:
- Professional yet approachable
- Concise and actionable
- Proactive with suggestions
- Clear and well-organized

Important:
- Keep responses brief for voice (2-3 sentences max)
- Avoid markdown, emojis, or special formatting
- Speak naturally as if in conversation
- Ask clarifying questions when needed".

(** Line 102. *)
Definition greeting_instructions : string :=
  "Greet the user briefly. Introduce yourself as ALIAS, their executive assistant. Ask how you can help today.".

(** Lines 60 and 112. *)
Definition session_starting : string := "🎙️ Starting ALIAS voice session".
Definition session_ended : string := "🎙️ ALIAS voice session ended".

Section Agent.
Context {World : Type} `{AgentSDK World}.

Definition log (e : AgentEvent) (a : AgentState World) : AgentState World :=
  mkAgentState (a_world a) (a_trace a ++ [e]).

(** One call, recorded. *)
Definition perform (c : Call) (a : AgentState World)
  : option raised * AgentState World :=
  let '(r, w) := sdk_call c (a_world a) in
  (r, mkAgentState w (a_trace a ++ [Called c])).

(** [c] and then, if it returned, [k]. *)
Definition and_then (c : Call)
    (k : AgentState World -> option raised * AgentState World)
    (a : AgentState World) : option raised * AgentState World :=
  match perform c a with
  | (None, a') => k a'
  | (Some r, a') => (Some r, a')
  end.

(** Lines 58-92: everything before the [try]. *)
Definition setup (a : AgentState World) : option raised * AgentState World :=
  and_then Connect (fun a1 =>
  and_then (NewAgent assistant_instructions)
   (and_then (NewSTT "scribe_v2_realtime" "en" true)
    (and_then (NewLLM "gpt-4o-mini")
     (and_then (NewTTS "Rachel" "eleven_turbo_v2_5")
      (and_then LoadVAD
       (perform NewSession)))))
   (log (LogInfo session_starting) a1)) a.

(** Lines 106-107: [while True: await asyncio.sleep(1)].  The loop has no
    exit of its own: it ends when a sleep raises.  [None] when [fuel]
    sleeps have all returned. *)
Fixpoint keep_running (fuel : nat) (a : AgentState World)
  : option (raised * AgentState World) :=
  match fuel with
  | O => None
  | S fuel' =>
      match perform (Sleep 1) a with
      | (None, a') => keep_running fuel' a'
      | (Some r, a') => Some (r, a')
      end
  end.

(** Lines 95-107: the body of the [try]. *)
Definition session_body (fuel : nat) (a : AgentState World)
  : option (raised * AgentState World) :=
  match perform SessionStart a with
  | (Some r, a1) => Some (r, a1)
  | (None, a1) =>
      match perform (GenerateReply greeting_instructions) a1 with
      | (Some r, a2) => Some (r, a2)
      | (None, a2) => keep_running fuel a2
      end
  end.

(** Lines 56-112. *)
Definition entrypoint (fuel : nat) (a : AgentState World)
  : option (Exit * AgentState World) :=
  match setup a with
  | (Some r, a1) => Some (Propagates r, a1)
  | (None, a1) =>
      match session_body fuel a1 with
      | None => None
      | Some (PyException str_exc, a2) =>
          Some (Returns,
                log (LogInfo session_ended)
                  (log (LogError ("Session error: " +:+ str_exc)) a2))
      | Some (PyBaseException str_exc, a2) =>
          Some (Propagates (PyBaseException str_exc),
                log (LogInfo session_ended) a2)
      end
  end.

End Agent.

(** The calls among the events, in order. *)
Definition calls_of (evs : list AgentEvent) : list Call :=
  omap (fun e => match e with Called c => Some c | _ => None end) evs.

(** The calls of a job in which nothing raises, up to the [n]-th sleep:
    those made before the [try], then those made inside it. *)
Definition setup_calls : list Call :=
  [Connect;
   NewAgent assistant_instructions;
   NewSTT "scribe_v2_realtime" "en" true;
   NewLLM "gpt-4o-mini";
   NewTTS "Rachel" "eleven_turbo_v2_5";
   LoadVAD;
   NewSession].

Definition session_calls (n : nat) : list Call :=
  [SessionStart; GenerateReply greeting_instructions] ++ replicate n (Sleep 1).


(** An event that is not an error line. *)
Definition not_error_line (e : AgentEvent) : Prop :=
  match e with
  | LogError _ => False
  | _ => True
  end.

(** An event that is neither the closing log line nor an error line. *)
Definition quiet_event (e : AgentEvent) : Prop :=
  match e with
  | Called c => c <> SessionStart
  | LogInfo msg => msg <> session_ended
  | LogError _ => False
  end.

(** A world in which every call returns. *)
Module Calm.

#[global] Instance platform : AgentSDK unit := {|
  sdk_call := fun _ w => (None, w)
|}.

End Calm.

(** A world that plays back a script, one entry per call, and lets every
    call return once the script is over. *)
Module Replay.

Definition answer (c : Call) (script : list (option raised))
  : option raised * list (option raised) :=
  match script with
  | [] => (None, [])
  | o :: rest => (o, rest)
  end.

#[global] Instance platform : AgentSDK (list (option raised)) := {|
  sdk_call := answer
|}.

End Replay.

(** A script in which connecting, the six constructors, [session.start],
    the greeting and one sleep return, and the second sleep raises. *)
Definition replay_until (last : raised) : list (option raised) :=
  replicate 10 None ++ [Some last].

Definition replay (script : list (option raised))
  : AgentState (list (option raised)) :=
  mkAgentState script [].

Section EntrypointEndings.
Context {World : Type} `{AgentSDK World}.

(** Every way [entrypoint] can end, with the events it added. *)
Inductive entrypoint_end (fuel : nat) (a : AgentState World)
  : Exit * AgentState World -> Prop :=
| end_in_setup r a1 evs :
    setup a = (Some r, a1) ->
    a_trace a1 = a_trace a ++ evs ->
    Forall quiet_event evs ->
    (exists rest, setup_calls = calls_of evs ++ rest) ->
    entrypoint_end fuel a (Propagates r, a1)
| end_swallowed str_exc a1 a2 evs cs n rest :
    setup a = (None, a1) ->
    a_trace a2 = a_trace a ++ evs ++ map Called (SessionStart :: cs) ->
    Forall quiet_event evs ->
    calls_of evs = setup_calls ->
    (n <= fuel)%nat ->
    session_calls n = (SessionStart :: cs) ++ rest ->
    entrypoint_end fuel a
      (Returns,
       log (LogInfo session_ended)
         (log (LogError ("Session error: " +:+ str_exc)) a2))
| end_passed_through str_exc a1 a2 evs cs n rest :
    setup a = (None, a1) ->
    a_trace a2 = a_trace a ++ evs ++ map Called (SessionStart :: cs) ->
    Forall quiet_event evs ->
    calls_of evs = setup_calls ->
    (n <= fuel)%nat ->
    session_calls n = (SessionStart :: cs) ++ rest ->
    entrypoint_end fuel a
      (Propagates (PyBaseException str_exc), log (LogInfo session_ended) a2).

End EntrypointEndings.

(** * Properties *)

(** ** Strings *)

Section StringFacts.
Import PyStr.

Lemma truthy_true s : truthy s = true <-> s <> "".
Proof. destruct s; simpl; split; congruence. Qed.

Lemma truthy_false s : truthy s = false <-> s = "".
Proof. destruct s; simpl; split; congruence. Qed.

Lemma startswith_spec needle : forall hay,
  startswith needle hay = true <-> exists post, hay = needle +:+ post.
Proof.
  induction needle as [|a n' IH]; intros hay; simpl.
  - split; [intros _; now exists hay | trivial].
  - destruct hay as [|b h'].
    + split; [discriminate | intros [post Hp]; discriminate].
    + destruct (Ascii.eqb_spec a b) as [->|Hab].
      * rewrite IH. split; intros [post Hp]; exists post.
        -- now rewrite Hp.
        -- now injection Hp.
      * split; [discriminate|]. intros [post Hp]. injection Hp as Hb _.
        now subst.
Qed.

Lemma contains_spec needle : forall hay,
  contains needle hay = true <-> substring_of needle hay.
Proof.
  unfold substring_of.
  induction hay as [|b h' IH]; simpl; rewrite orb_true_iff, startswith_spec.
  - split.
    + intros [[post Hp]|]; [|discriminate]. now exists "", post.
    + intros (pre & post & Hp). left. destruct pre; simpl in Hp.
      * now exists post.
      * discriminate.
  - rewrite IH. split.
    + intros [[post Hp]|(pre & post & Hp)].
      * now exists "", post.
      * exists (String b pre), post. simpl. now rewrite Hp.
    + intros (pre & post & Hp). destruct pre as [|c pre]; simpl in Hp.
      * left. now exists post.
      * right. injection Hp as _ Hp. now exists pre, post.
Qed.

(** stdpp keeps string append from unfolding under [simpl]; its
    computation rule on a non-empty string is restated once. *)
Lemma app_cons (x : ascii) (a b : string) :
  String x a +:+ b = String x (a +:+ b).
Proof. reflexivity. Qed.

Lemma string_app_assoc (a b c : string) : (a +:+ b) +:+ c = a +:+ (b +:+ c).
Proof.
  induction a as [|x a IH]; [reflexivity|].
  rewrite !app_cons. now f_equal.
Qed.

Lemma lower_app (a b : string) : lower (a +:+ b) = lower a +:+ lower b.
Proof.
  induction a as [|x a IH]; [reflexivity|].
  rewrite app_cons. simpl. rewrite app_cons. now f_equal.
Qed.

Lemma substring_of_lower needle hay :
  substring_of needle hay -> substring_of (lower needle) (lower hay).
Proof.
  intros (pre & post & ->). exists (lower pre), (lower post).
  now rewrite !lower_app.
Qed.

(** The first disjunct of line 65 is covered by the second. *)
Lemma already_exists_is_exists s :
  contains "already exists" s = true -> contains "exists" s = true.
Proof.
  rewrite !contains_spec. intros (pre & post & ->).
  exists (pre +:+ "already "), post. now rewrite string_app_assoc.
Qed.

Lemma says_exists_lower str_exc :
  says_exists str_exc = contains "exists" (lower str_exc).
Proof.
  unfold says_exists. cbv zeta.
  destruct (contains "already exists" (lower str_exc)) eqn:E; simpl; [|easy].
  symmetry. now apply already_exists_is_exists.
Qed.

(** A message that literally holds one of the two phrases passes the
    test, whatever the case of the rest of it. *)
Lemma says_exists_of_substring str_exc :
  substring_of "already exists" str_exc \/ substring_of "exists" str_exc ->
  says_exists str_exc = true.
Proof.
  unfold says_exists. cbv zeta. rewrite orb_true_iff, !contains_spec.
  intros [Hs|Hs]; [left|right]; exact (substring_of_lower _ _ Hs).
Qed.

End StringFacts.

(** ** Configuration *)

Lemma configured_false_iff cfg :
  configured cfg = false <->
  LIVEKIT_URL cfg = "" \/ LIVEKIT_API_KEY cfg = "" \/ LIVEKIT_API_SECRET cfg = "".
Proof.
  unfold configured. rewrite !andb_false_iff, !truthy_false. tauto.
Qed.

Lemma configured_true_iff cfg :
  configured cfg = true <->
  LIVEKIT_URL cfg <> "" /\ LIVEKIT_API_KEY cfg <> "" /\ LIVEKIT_API_SECRET cfg <> "".
Proof.
  unfold configured. rewrite !andb_true_iff, !truthy_true. tauto.
Qed.

(** A variable that is not in the environment reads as its default. *)
Lemma getenv_unset (environ : gmap string string) key dflt :
  environ !! key = None -> getenv environ key dflt = dflt.
Proof. unfold getenv. now intros ->. Qed.

Lemma getenv_set (environ : gmap string string) key dflt v :
  environ !! key = Some v -> getenv environ key dflt = v.
Proof. unfold getenv. now intros ->. Qed.

(** The loaded configuration has an empty value exactly when the
    environment sets one of the three variables to the empty string. *)
Lemma load_config_unconfigured (environ : gmap string string) :
  configured (load_config environ) = false <->
  environ !! "LIVEKIT_URL" = Some "" \/
  environ !! "LIVEKIT_API_KEY" = Some "" \/
  environ !! "LIVEKIT_API_SECRET" = Some "".
Proof.
  rewrite configured_false_iff. unfold load_config, getenv. simpl.
  destruct (environ !! "LIVEKIT_URL") as [u|];
    destruct (environ !! "LIVEKIT_API_KEY") as [k|];
    destruct (environ !! "LIVEKIT_API_SECRET") as [s|]; simpl;
    split; intros [E|[E|E]]; try discriminate E;
      (try (injection E as ->)); subst; auto.
Qed.

(** ** The handlers, step by step *)

Section HandlerFacts.
Context {World : Type} `{LiveKit World}.
Implicit Types (cfg : Config) (st : State World).

Lemma require_config_ok cfg st :
  configured cfg = true -> _require_config cfg st = (Ok tt, st).
Proof. unfold _require_config. now intros ->. Qed.

Lemma require_config_err cfg st :
  configured cfg = false -> _require_config cfg st = (Raise config_error, st).
Proof. unfold _require_config. now intros ->. Qed.

(** What [_ensure_room] does, by the outcome of the SDK call. *)
Lemma ensure_room_returned room_name st w' :
  sdk_create_room room_name (world st) = (Returned tt, w') ->
  _ensure_room room_name st
  = (Ok tt, mkState w' (trace st ++ [CreateRoomCall room_name])).
Proof. unfold _ensure_room, call_create_room. now intros ->. Qed.

Lemma ensure_room_raised room_name st str_exc w' :
  sdk_create_room room_name (world st) = (Raised str_exc, w') ->
  _ensure_room room_name st
  = (if says_exists str_exc then Ok tt else Raise (provisioning_error str_exc),
     mkState w' (trace st ++ [CreateRoomCall room_name])).
Proof.
  unfold _ensure_room, call_create_room. intros ->.
  now destruct (says_exists str_exc).
Qed.

(** [_ensure_room] always makes exactly one call, and raises nothing but
    the provisioning error. *)
Lemma ensure_room_inv room_name st r st' :
  _ensure_room room_name st = (r, st') ->
  trace st' = trace st ++ [CreateRoomCall room_name] /\
  (r = Ok tt \/
   exists str_exc, says_exists str_exc = false /\
                   r = Raise (provisioning_error str_exc)).
Proof.
  unfold _ensure_room, call_create_room.
  destruct (sdk_create_room room_name (world st)) as [[[]|str_exc] w'].
  - intros [= <- <-]. auto.
  - destruct (says_exists str_exc) eqn:E; intros [= <- <-]; eauto.
Qed.

(** [get_token] once the configuration check has passed. *)
Lemma get_token_configured cfg body st :
  configured cfg = true ->
  get_token cfg body st =
  match (if auto_create_room body then _ensure_room (room body) else ret tt) st with
  | (Ok _, st1) =>
      let st2 := mkState (world st1)
                   (trace st1 ++ [SignCall (token_for cfg body)]) in
      match sdk_to_jwt (token_for cfg body) (world st1) with
      | Returned jwt =>
          (Ok {| resp_token := jwt;
                 resp_url := LIVEKIT_URL cfg;
                 resp_identity := identity body;
                 resp_room := room body |}, st2)
      | Raised str_exc => (Raise (Exception str_exc), st2)
      end
  | (Raise e, st1) => (Raise e, st1)
  end.
Proof.
  intros Hc. unfold get_token, bind. rewrite (require_config_ok _ _ Hc).
  destruct ((if auto_create_room body
             then _ensure_room (room body) else ret tt) st) as [[[]|e] st1];
    [|reflexivity].
  unfold call_to_jwt.
  now destruct (sdk_to_jwt (token_for cfg body) (world st1)).
Qed.

Lemma get_token_unconfigured cfg body st :
  configured cfg = false -> get_token cfg body st = (Raise config_error, st).
Proof.
  intros Hc. unfold get_token, bind. now rewrite (require_config_err _ _ Hc).
Qed.

Lemma create_room_unconfigured cfg body st :
  configured cfg = false -> create_room cfg body st = (Raise config_error, st).
Proof.
  intros Hc. unfold create_room, bind. now rewrite (require_config_err _ _ Hc).
Qed.

Lemma create_room_configured cfg body st :
  configured cfg = true ->
  create_room cfg body st =
  match _ensure_room (rc_name body) st with
  | (Ok _, st1) => (Ok {| rr_room := rc_name body; rr_created := true |}, st1)
  | (Raise e, st1) => (Raise e, st1)
  end.
Proof.
  intros Hc. unfold create_room, bind. rewrite (require_config_ok _ _ Hc).
  now destruct (_ensure_room (rc_name body) st) as [[[]|e] st1].
Qed.

(** Every successful [get_token] went through the three steps. *)
Lemma get_token_ok_inv cfg body st resp st' :
  get_token cfg body st = (Ok resp, st') ->
  configured cfg = true /\
  exists st1,
    (if auto_create_room body then _ensure_room (room body) else ret tt) st
    = (Ok tt, st1) /\
    sdk_to_jwt (token_for cfg body) (world st1) = Returned (resp_token resp) /\
    st' = mkState (world st1) (trace st1 ++ [SignCall (token_for cfg body)]) /\
    resp = {| resp_token := resp_token resp;
              resp_url := LIVEKIT_URL cfg;
              resp_identity := identity body;
              resp_room := room body |}.
Proof.
  destruct (configured cfg) eqn:Hc.
  - rewrite (get_token_configured _ _ _ Hc).
    destruct ((if auto_create_room body
               then _ensure_room (room body) else ret tt) st) as [[[]|e] st1];
      [|discriminate].
    cbv zeta.
    destruct (sdk_to_jwt (token_for cfg body) (world st1)) as [jwt|m] eqn:Hs;
      [|discriminate].
    intros [= <- <-]. split; [reflexivity|]. exists st1. simpl. auto.
  - rewrite (get_token_unconfigured _ _ _ Hc). discriminate.
Qed.

End HandlerFacts.

(** * The claims *)

(** ** C1: missing configuration *)

(** C1, as stated, at the empty environment: none of the three variables is
    set, yet POST /rooms answers [created] after calling the room service
    and POST /token returns a token.  An unset variable reads as its
    default, which is not empty. *)
Lemma C1_unset_settings_counterexample :
  (∅ : gmap string string) !! "LIVEKIT_URL" = None /\
  (∅ : gmap string string) !! "LIVEKIT_API_KEY" = None /\
  (∅ : gmap string string) !! "LIVEKIT_API_SECRET" = None /\
  create_room (load_config ∅) {| rc_name := "standup" |} fresh_strict
  = (Ok {| rr_room := "standup"; rr_created := true |},
     mkState {["standup"]} [CreateRoomCall "standup"]) /\
  get_token (load_config ∅) (standup_u1 false) fresh_strict
  = (Ok {| resp_token := "hs256.u1.devkey";
           resp_url := "ws://localhost:7880";
           resp_identity := "u1";
           resp_room := "standup" |},
     mkState ∅ [SignCall (token_for (load_config ∅) (standup_u1 false))]).
Proof. repeat split; vm_compute; reflexivity. Qed.

(** C1, amended: when the environment sets one of the three variables to the
    empty string, [get_token] and [create_room] both raise the
    [HTTPException] with status 500 and the fixed message, and the state
    they return is the state they started from: the world is untouched and
    no call was recorded.  In every other environment, the ones that leave
    variables unset among them, the configuration check passes. *)
Theorem C1_empty_setting_fails_without_call
    {World : Type} `{LiveKit World}
    (environ : gmap string string)
    (tbody : TokenRequest) (rbody : RoomCreateRequest) (st : State World) :
  (environ !! "LIVEKIT_URL" = Some "" \/
   environ !! "LIVEKIT_API_KEY" = Some "" \/
   environ !! "LIVEKIT_API_SECRET" = Some "" ->
   get_token (load_config environ) tbody st
   = (Raise (HTTPException 500
        "LIVEKIT_URL, LIVEKIT_API_KEY, and LIVEKIT_API_SECRET must be set"),
      st) /\
   create_room (load_config environ) rbody st
   = (Raise (HTTPException 500
        "LIVEKIT_URL, LIVEKIT_API_KEY, and LIVEKIT_API_SECRET must be set"),
      st)) /\
  (~ (environ !! "LIVEKIT_URL" = Some "" \/
      environ !! "LIVEKIT_API_KEY" = Some "" \/
      environ !! "LIVEKIT_API_SECRET" = Some "") ->
   _require_config (load_config environ) st = (Ok tt, st)).
Proof.
  split.
  - intros Hempty. apply load_config_unconfigured in Hempty. split.
    + now apply get_token_unconfigured.
    + now apply create_room_unconfigured.
  - intros Hnone. apply require_config_ok.
    destruct (configured (load_config environ)) eqn:Hc; [reflexivity|].
    now apply load_config_unconfigured in Hc.
Qed.

Lemma C1_empty_setting_witness :
  (get_token (load_config empty_secret_environ) (standup_u1 true) fresh_strict
   = (Raise config_error, fresh_strict) /\
   create_room (load_config empty_secret_environ) {| rc_name := "standup" |}
     fresh_strict
   = (Raise config_error, fresh_strict)) /\
  _require_config (load_config ∅) fresh_strict = (Ok tt, fresh_strict).
Proof.
  split.
  - apply (proj1 (C1_empty_setting_fails_without_call empty_secret_environ
                    (standup_u1 true) {| rc_name := "standup" |}
                    fresh_strict)).
    right; right. vm_compute. reflexivity.
  - apply (proj2 (C1_empty_setting_fails_without_call ∅
                    (standup_u1 true) {| rc_name := "standup" |}
                    fresh_strict)).
    intros [E|[E|E]]; vm_compute in E; discriminate E.
Defined.

(** ** C2: how [_ensure_room] reads a failure *)

(** C2: suppose the room-service call raises.  If the text of the exception
    holds "already exists" or "exists" (literally, or after lowering, which
    is the test the code runs), [_ensure_room] returns normally.  Otherwise
    it raises [HTTPException] 500 whose detail is "Failed to create room: "
    followed by the text, and a [get_token] with the flag on stops there
    with that same exception. *)
Theorem C2_ensure_room_classifies
    {World : Type} `{LiveKit World}
    (cfg : Config) (body : TokenRequest) (st : State World)
    (str_exc : string) (w' : World) :
  sdk_create_room (room body) (world st) = (Raised str_exc, w') ->
  let st' := mkState w' (trace st ++ [CreateRoomCall (room body)]) in
  (PyStr.substring_of "already exists" str_exc \/
   PyStr.substring_of "exists" str_exc \/
   says_exists str_exc = true ->
   _ensure_room (room body) st = (Ok tt, st')) /\
  (says_exists str_exc = false ->
   _ensure_room (room body) st
   = (Raise (HTTPException 500 ("Failed to create room: " +:+ str_exc)), st') /\
   (configured cfg = true -> auto_create_room body = true ->
    get_token cfg body st
    = (Raise (HTTPException 500 ("Failed to create room: " +:+ str_exc)), st'))).
Proof.
  intros Hcall st'. pose proof (ensure_room_raised _ _ _ _ Hcall) as He.
  split.
  - intros Hsub.
    assert (says_exists str_exc = true) as Hs.
    { destruct Hsub as [Hs|[Hs|Hs]]; [| |exact Hs];
        apply says_exists_of_substring; auto. }
    now rewrite Hs in He.
  - intros Hs. rewrite Hs in He. split; [exact He|].
    intros Hc Hauto. rewrite (get_token_configured _ _ _ Hc), Hauto.
    now rewrite He.
Qed.

Lemma C2_ensure_room_witness :
  _ensure_room "standup" (scripted [Raised "Room ALREADY EXISTS: standup"])
  = (Ok tt, mkState [] [CreateRoomCall "standup"]) /\
  get_token (load_config ∅) (standup_u1 true)
    (scripted [Raised "connection refused"])
  = (Raise (HTTPException 500 "Failed to create room: connection refused"),
     mkState [] [CreateRoomCall "standup"]).
Proof.
  split.
  - apply (C2_ensure_room_classifies (load_config ∅) (standup_u1 true)
             (scripted [Raised "Room ALREADY EXISTS: standup"])
             "Room ALREADY EXISTS: standup" []).
    + reflexivity.
    + right; right. vm_compute. reflexivity.
  - apply (C2_ensure_room_classifies (load_config ∅) (standup_u1 true)
             (scripted [Raised "connection refused"])
             "connection refused" []).
    + reflexivity.
    + vm_compute. reflexivity.
    + vm_compute. reflexivity.
    + reflexivity.
Defined.

(** ** C3: no credential next to a provisioning failure *)

(** C3: with the flag on, a room-service failure that the test of line 65
    does not pass makes [get_token] raise the provisioning error; the only
    call recorded is the room-service call, so nothing was signed.  And for
    every request whatsoever, the result is one of three: a response whose
    token is what the signer returned after the provisioning step succeeded;
    an [HTTPException] with no signer call among the recorded calls; or the
    signer's own exception. *)
Theorem C3_token_or_error
    {World : Type} `{LiveKit World}
    (cfg : Config) (body : TokenRequest) (st : State World) :
  (forall str_exc w',
     configured cfg = true ->
     auto_create_room body = true ->
     sdk_create_room (room body) (world st) = (Raised str_exc, w') ->
     says_exists str_exc = false ->
     get_token cfg body st
     = (Raise (HTTPException 500 ("Failed to create room: " +:+ str_exc)),
        mkState w' (trace st ++ [CreateRoomCall (room body)]))) /\
  match get_token cfg body st with
  | (Ok resp, st') =>
      exists st1,
        (if auto_create_room body then _ensure_room (room body) else ret tt) st
        = (Ok tt, st1) /\
        sdk_to_jwt (token_for cfg body) (world st1) = Returned (resp_token resp) /\
        trace st' = trace st1 ++ [SignCall (token_for cfg body)]
  | (Raise (HTTPException _ _), st') =>
      exists calls, trace st' = trace st ++ calls /\
                    forallb (fun e => negb (is_sign e)) calls = true
  | (Raise _, _) => True
  end.
Proof.
  split.
  - intros str_exc w' Hc Hauto Hcall Hs.
    rewrite (get_token_configured _ _ _ Hc), Hauto.
    rewrite (ensure_room_raised _ _ _ _ Hcall), Hs. reflexivity.
  - destruct (get_token cfg body st) as [[resp|e] st'] eqn:Hg.
    + apply get_token_ok_inv in Hg as (_ & st1 & He & Hs & -> & _).
      exists st1. auto.
    + destruct e as [code detail| |]; trivial.
      destruct (configured cfg) eqn:Hc.
      * rewrite (get_token_configured _ _ _ Hc) in Hg.
        destruct (auto_create_room body).
        -- destruct (_ensure_room (room body) st) as [[[]|e1] st1] eqn:He.
           ++ cbv zeta in Hg.
              destruct (sdk_to_jwt (token_for cfg body) (world st1));
                discriminate Hg.
           ++ injection Hg as _ <-.
              apply ensure_room_inv in He as [Ht _].
              exists [CreateRoomCall (room body)]. auto.
        -- unfold ret in Hg. cbv zeta in Hg.
           destruct (sdk_to_jwt (token_for cfg body) (world st));
             discriminate Hg.
      * rewrite (get_token_unconfigured _ _ _ Hc) in Hg.
        assert (st' = st) as -> by congruence.
        exists []. now rewrite app_nil_r.
Qed.

Lemma C3_token_or_error_witness :
  get_token (load_config ∅) (standup_u1 true)
    (scripted [Raised "connection refused"])
  = (Raise (HTTPException 500 "Failed to create room: connection refused"),
     mkState [] [CreateRoomCall "standup"]).
Proof.
  apply (proj1 (C3_token_or_error (load_config ∅) (standup_u1 true)
                  (scripted [Raised "connection refused"]))).
  - vm_compute. reflexivity.
  - reflexivity.
  - reflexivity.
  - vm_compute. reflexivity.
Defined.

(** ** C4: the response of POST /token *)

Lemma post_token_valid {World : Type} `{LiveKit World}
    (cfg : Config) (b : TokenBody) (st : State World) (r i : string) :
  json_room b = Some r -> json_identity b = Some i ->
  post_token cfg b st
  = get_token cfg {| room := r; identity := i; name := json_name b;
                     auto_create_room := default true (json_auto_create_room b) |}
      st.
Proof. unfold post_token, validate_TokenRequest. now intros -> ->. Qed.

(** C4: take a body that carries a room [r] and an identity [i], and a
    signer whose tokens are never the empty string.  Whenever the
    configuration is complete, the provisioning step succeeds and the signer
    returns, POST /token answers; and every answer it gives has [identity]
    equal to [i], [room] equal to [r], [url] equal to the configured
    [LIVEKIT_URL], and a non-empty [token] that the signer produced for an
    access token whose identity is [i] and whose grant names room [r]. *)
Theorem C4_token_response_matches_request
    {World : Type} `{LiveKit World}
    (cfg : Config) (b : TokenBody) (st : State World) (r i : string) :
  (forall t w jwt, sdk_to_jwt t w = Returned jwt -> jwt <> "") ->
  json_room b = Some r ->
  json_identity b = Some i ->
  let body := {| room := r; identity := i; name := json_name b;
                 auto_create_room := default true (json_auto_create_room b) |} in
  (forall st1 jwt,
     configured cfg = true ->
     (if auto_create_room body then _ensure_room r else ret tt) st = (Ok tt, st1) ->
     sdk_to_jwt (token_for cfg body) (world st1) = Returned jwt ->
     post_token cfg b st
     = (Ok {| resp_token := jwt; resp_url := LIVEKIT_URL cfg;
              resp_identity := i; resp_room := r |},
        mkState (world st1) (trace st1 ++ [SignCall (token_for cfg body)]))) /\
  (forall resp st',
     post_token cfg b st = (Ok resp, st') ->
     resp_identity resp = i /\
     resp_room resp = r /\
     resp_url resp = LIVEKIT_URL cfg /\
     resp_token resp <> "" /\
     at_identity (token_for cfg body) = i /\
     vg_room <$> at_grants (token_for cfg body) = Some r /\
     exists w, sdk_to_jwt (token_for cfg body) w = Returned (resp_token resp)).
Proof.
  intros Hjwt Hr Hi body. rewrite (post_token_valid cfg b st r i Hr Hi).
  fold body. split.
  - intros st1 jwt Hc He Hs. rewrite (get_token_configured _ _ _ Hc).
    change (room body) with r. rewrite He. cbv zeta. now rewrite Hs.
  - intros resp st' Hg.
    apply get_token_ok_inv in Hg as (_ & st1 & _ & Hs & _ & ->). simpl.
    repeat split; try reflexivity.
    + exact (Hjwt _ _ _ Hs).
    + now exists (world st1).
Qed.

Lemma strict_jwt_nonempty (t : AccessToken) (rooms : gset string) (jwt : string) :
  sdk_to_jwt t rooms = Returned jwt -> jwt <> "".
Proof. simpl. intros [= <-]. discriminate. Qed.

Lemma C4_token_response_witness :
  post_token (load_config ∅) standup_u1_body fresh_strict
  = (Ok {| resp_token := "hs256.u1.devkey";
           resp_url := "ws://localhost:7880";
           resp_identity := "u1";
           resp_room := "standup" |},
     mkState {["standup"]}
       [CreateRoomCall "standup";
        SignCall (token_for (load_config ∅) (standup_u1 true))]).
Proof.
  assert (configured (load_config ∅) = true) as Hc by (vm_compute; reflexivity).
  pose proof (proj1 (C4_token_response_matches_request (load_config ∅)
                       standup_u1_body fresh_strict "standup" "u1"
                       strict_jwt_nonempty eq_refl eq_refl)
                (mkState {["standup"]} [CreateRoomCall "standup"])
                "hs256.u1.devkey" Hc) as W.
  etrans; [apply W; vm_compute; reflexivity|].
  vm_compute. reflexivity.
Defined.

(** ** C5: the grant *)

(** C5: the access token [get_token] builds carries a grant with
    [room_join], [can_publish], [can_subscribe] and [can_publish_data] all
    true and with the room of the request; it is the only token the handler
    ever hands to the signer, and a successful response comes from signing
    it. *)
Theorem C5_grant_is_full
    {World : Type} `{LiveKit World}
    (cfg : Config) (body : TokenRequest) (st : State World) :
  at_grants (token_for cfg body)
  = Some {| room_join := true;
            vg_room := room body;
            can_publish := true;
            can_subscribe := true;
            can_publish_data := true |} /\
  (exists calls,
     trace (snd (get_token cfg body st)) = trace st ++ calls /\
     Forall (signs_only (token_for cfg body)) calls) /\
  match get_token cfg body st with
  | (Ok resp, st') =>
      last (trace st') = Some (SignCall (token_for cfg body)) /\
      exists w, sdk_to_jwt (token_for cfg body) w = Returned (resp_token resp)
  | (Raise _, _) => True
  end.
Proof.
  split; [reflexivity|]. split.
  - destruct (configured cfg) eqn:Hc.
    + rewrite (get_token_configured _ _ _ Hc).
      assert (exists st1 r1 calls1,
                 (if auto_create_room body
                  then _ensure_room (room body) else ret tt) st = (r1, st1) /\
                 trace st1 = trace st ++ calls1 /\
                 Forall (signs_only (token_for cfg body)) calls1)
        as (st1 & r1 & calls1 & -> & Ht & Hall).
      { destruct (auto_create_room body).
        - destruct (_ensure_room (room body) st) as [r1 st1] eqn:He.
          apply ensure_room_inv in He as [Ht _].
          exists st1, r1, [CreateRoomCall (room body)].
          repeat split; auto. repeat constructor.
        - exists st, (Ok tt), []. rewrite app_nil_r. repeat split. constructor. }
      destruct r1 as [[]|e].
      * exists (calls1 ++ [SignCall (token_for cfg body)]).
        split.
        -- cbv zeta.
           destruct (sdk_to_jwt (token_for cfg body) (world st1)); simpl;
             rewrite Ht; now rewrite app_assoc.
        -- apply Forall_app. split; [exact Hall|]. now repeat constructor.
      * exists calls1. auto.
    + rewrite (get_token_unconfigured _ _ _ Hc). exists [].
      simpl. rewrite app_nil_r. split; [reflexivity|constructor].
  - destruct (get_token cfg body st) as [[resp|e] st'] eqn:Hg; [|trivial].
    apply get_token_ok_inv in Hg as (_ & st1 & _ & Hs & -> & _).
    simpl. split.
    + apply last_snoc.
    + now exists (world st1).
Qed.

(** ** C6: what validation asks of identity and room *)

(** C6, as stated, at a body whose identity is the empty string: validation
    lets it through, and the handler signs for the empty identity.  On the
    platform that signs whatever it is given a token comes back; on the one
    whose signer refuses an empty identity the request dies on the signer's
    exception, which is not a validation error either.  The same holds for
    an empty room. *)
Lemma C6_empty_identity_counterexample :
  validate_TokenRequest empty_identity_body
  = inr {| room := "standup"; identity := ""; name := None;
           auto_create_room := false |} /\
  validate_TokenRequest empty_room_body
  = inr {| room := ""; identity := "u1"; name := None;
           auto_create_room := false |} /\
  (exists t,
     at_identity t = "" /\
     post_token (load_config ∅) empty_identity_body fresh_strict
     = (Ok {| resp_token := "hs256..devkey";
              resp_url := "ws://localhost:7880";
              resp_identity := "";
              resp_room := "standup" |},
        mkState ∅ [SignCall t])) /\
  (exists t,
     at_identity t = "" /\
     post_token (load_config ∅) empty_identity_body (scripted [])
     = (Raise (Exception "identity and room must be set when joining a room"),
        mkState [] [SignCall t])) /\
  (exists t,
     (vg_room <$> at_grants t) = Some "" /\
     post_token (load_config ∅) empty_room_body fresh_strict
     = (Ok {| resp_token := "hs256.u1.devkey";
              resp_url := "ws://localhost:7880";
              resp_identity := "u1";
              resp_room := "" |},
        mkState ∅ [SignCall t])).
Proof.
  split; [reflexivity|]. split; [reflexivity|]. repeat split.
  - eexists. split; [|vm_compute; reflexivity]. reflexivity.
  - eexists. split; [|vm_compute; reflexivity]. reflexivity.
  - eexists. split; [|vm_compute; reflexivity]. reflexivity.
Qed.

(** C6, amended: validation asks that [room] and [identity] be present and
    nothing more.  A body that lacks one of them is refused with a
    validation error before the handler runs, the state untouched.  A body
    that carries both, empty strings included, is handed to [get_token] as
    it is. *)
Theorem C6_validation_checks_presence_only
    {World : Type} `{LiveKit World}
    (cfg : Config) (b : TokenBody) (st : State World) :
  (json_room b = None \/ json_identity b = None ->
   exists missing,
     missing <> [] /\
     post_token cfg b st = (Raise (RequestValidationError missing), st)) /\
  (forall r i,
     json_room b = Some r -> json_identity b = Some i ->
     validate_TokenRequest b
     = inr {| room := r; identity := i; name := json_name b;
              auto_create_room := default true (json_auto_create_room b) |} /\
     post_token cfg b st
     = get_token cfg
         {| room := r; identity := i; name := json_name b;
            auto_create_room := default true (json_auto_create_room b) |} st).
Proof.
  split.
  - unfold post_token, validate_TokenRequest.
    destruct (json_room b), (json_identity b); intros [E|E];
      try discriminate E; eexists; (split; [|reflexivity]); discriminate.
  - intros r i Hr Hi. split.
    + unfold validate_TokenRequest. now rewrite Hr, Hi.
    + now apply post_token_valid.
Qed.

Lemma C6_validation_witness :
  (exists missing,
     missing <> [] /\
     post_token (load_config ∅)
       {| json_room := Some "standup"; json_identity := None;
          json_name := None; json_auto_create_room := None |} fresh_strict
     = (Raise (RequestValidationError missing), fresh_strict)) /\
  post_token (load_config ∅) empty_identity_body fresh_strict
  = get_token (load_config ∅)
      {| room := "standup"; identity := ""; name := None;
         auto_create_room := false |} fresh_strict.
Proof.
  split.
  - apply (proj1 (C6_validation_checks_presence_only (load_config ∅)
                    {| json_room := Some "standup"; json_identity := None;
                       json_name := None; json_auto_create_room := None |}
                    fresh_strict)).
    right. reflexivity.
  - apply (proj2 (C6_validation_checks_presence_only (load_config ∅)
                    empty_identity_body fresh_strict) "standup" "");
      reflexivity.
Defined.

(** ** C7: the auto-provision flag *)

(** C7: with a complete configuration and the flag on, the first call
    [get_token] makes is the room-service call for the requested room, and
    the signer, if it is reached at all, comes after it.  With the flag off
    the world is left as it was and no room-service call is recorded, with
    any configuration.  A body that leaves the flag out validates to a
    request with the flag on. *)
Theorem C7_auto_create_flag
    {World : Type} `{LiveKit World}
    (cfg : Config) (body : TokenRequest) (st : State World) :
  (configured cfg = true -> auto_create_room body = true ->
   exists later,
     trace (snd (get_token cfg body st))
     = trace st ++ CreateRoomCall (room body) :: later /\
     (later = [] \/ later = [SignCall (token_for cfg body)])) /\
  (auto_create_room body = false ->
   world (snd (get_token cfg body st)) = world st /\
   (trace (snd (get_token cfg body st)) = trace st \/
    trace (snd (get_token cfg body st))
    = trace st ++ [SignCall (token_for cfg body)])) /\
  (forall b body',
     json_auto_create_room b = None ->
     validate_TokenRequest b = inr body' ->
     auto_create_room body' = true).
Proof.
  split; [|split].
  - intros Hc Hauto. rewrite (get_token_configured _ _ _ Hc), Hauto.
    destruct (_ensure_room (room body) st) as [[[]|e] st1] eqn:He;
      apply ensure_room_inv in He as [Ht _].
    + exists [SignCall (token_for cfg body)]. split; [|auto].
      cbv zeta.
      destruct (sdk_to_jwt (token_for cfg body) (world st1)); simpl;
        rewrite Ht, <- app_assoc; reflexivity.
    + exists []. auto.
  - intros Hauto. destruct (configured cfg) eqn:Hc.
    + rewrite (get_token_configured _ _ _ Hc), Hauto. unfold ret. cbv zeta.
      destruct (sdk_to_jwt (token_for cfg body) (world st)); simpl; auto.
    + rewrite (get_token_unconfigured _ _ _ Hc). simpl. auto.
  - intros b body' Hnone. unfold validate_TokenRequest. rewrite Hnone.
    destruct (json_room b), (json_identity b); intros [= <-]. reflexivity.
Qed.

Lemma C7_auto_create_flag_witness :
  (exists later,
     trace (snd (get_token (load_config ∅) (standup_u1 true) fresh_strict))
     = trace fresh_strict ++ CreateRoomCall "standup" :: later /\
     (later = [] \/
      later = [SignCall (token_for (load_config ∅) (standup_u1 true))])) /\
  world (snd (get_token (load_config ∅) (standup_u1 false) fresh_strict)) = ∅ /\
  auto_create_room
    {| room := "standup"; identity := "u1"; name := None;
       auto_create_room := default true None |} = true.
Proof.
  split; [|split].
  - apply (proj1 (C7_auto_create_flag (load_config ∅) (standup_u1 true)
                    fresh_strict)).
    + vm_compute. reflexivity.
    + reflexivity.
  - apply (proj1 (proj2 (C7_auto_create_flag (load_config ∅)
                           (standup_u1 false) fresh_strict))).
    reflexivity.
  - apply (proj2 (proj2 (C7_auto_create_flag (load_config ∅)
                           (standup_u1 true) fresh_strict))
             standup_u1_body).
    + reflexivity.
    + reflexivity.
Defined.

(** ** C8: calling [_ensure_room] twice *)

Lemma strict_create_absent (rooms : gset string) (room_name : string) :
  strict_has_room rooms room_name = false ->
  exists w', sdk_create_room room_name rooms = (Returned tt, w') /\
             strict_has_room w' room_name = true.
Proof.
  intros Hno. apply bool_decide_eq_false in Hno.
  exists ({[room_name]} ∪ rooms). simpl. unfold Strict.create.
  rewrite decide_False by exact Hno. split; [reflexivity|].
  apply bool_decide_eq_true. set_solver.
Qed.

Lemma strict_create_present (rooms : gset string) (room_name : string) :
  strict_has_room rooms room_name = true ->
  exists str_exc w',
    sdk_create_room room_name rooms = (Raised str_exc, w') /\
    PyStr.substring_of "already exists" str_exc /\
    strict_has_room w' room_name = true.
Proof.
  intros Hyes. pose proof Hyes as Hin. apply bool_decide_eq_true in Hin.
  exists Strict.duplicate_message, rooms. simpl. unfold Strict.create.
  rewrite decide_True by exact Hin. repeat split.
  - now exists "room ", "".
  - exact Hyes.
Qed.

#[global] Instance strict_rejects_duplicates
  : DuplicateRejecting (gset string) := {|
  has_room := strict_has_room;
  create_absent := strict_create_absent;
  create_present := strict_create_present
|}.

Section Idempotence.
Context {World : Type} `{DuplicateRejecting World}.

(** One call on such a platform: it succeeds and the room exists after. *)
Lemma ensure_room_succeeds (room_name : string) (st : State World) :
  exists w',
    _ensure_room room_name st
    = (Ok tt, mkState w' (trace st ++ [CreateRoomCall room_name])) /\
    has_room w' room_name = true.
Proof.
  destruct (has_room (world st) room_name) eqn:Hhas.
  - destruct (create_present _ _ Hhas) as (str_exc & w' & Hcall & Hsub & Hw').
    exists w'. split; [|exact Hw'].
    rewrite (ensure_room_raised _ _ _ _ Hcall).
    rewrite says_exists_of_substring by auto. reflexivity.
  - destruct (create_absent _ _ Hhas) as (w' & Hcall & Hw').
    exists w'. split; [|exact Hw'].
    apply (ensure_room_returned _ _ _ Hcall).
Qed.

End Idempotence.

(** C8: on a platform that refuses to create a room twice, two calls of
    [_ensure_room] in a row with the same name both return normally, from
    any starting state; the second one is answered by the duplicate error
    and swallowed. *)
Theorem C8_ensure_room_idempotent
    {World : Type} `{DuplicateRejecting World}
    (room_name : string) (st : State World) :
  exists st1 st2,
    _ensure_room room_name st = (Ok tt, st1) /\
    _ensure_room room_name st1 = (Ok tt, st2) /\
    has_room (world st1) room_name = true /\
    has_room (world st2) room_name = true /\
    trace st2 = trace st ++ [CreateRoomCall room_name; CreateRoomCall room_name].
Proof.
  destruct (ensure_room_succeeds room_name st) as (w1 & He1 & Hw1).
  set (st1 := mkState w1 (trace st ++ [CreateRoomCall room_name])) in *.
  destruct (ensure_room_succeeds room_name st1) as (w2 & He2 & Hw2).
  eexists st1, _. repeat split; [exact He1|exact He2|exact Hw1|exact Hw2|].
  simpl. now rewrite <- app_assoc.
Qed.

Lemma C8_ensure_room_idempotent_witness :
  exists st1 st2,
    _ensure_room "standup" fresh_strict = (Ok tt, st1) /\
    _ensure_room "standup" st1 = (Ok tt, st2) /\
    has_room (world st1) "standup" = true /\
    has_room (world st2) "standup" = true /\
    trace st2
    = trace fresh_strict ++ [CreateRoomCall "standup"; CreateRoomCall "standup"].
Proof. exact (C8_ensure_room_idempotent "standup" fresh_strict). Defined.

(** ** C9: the response of POST /rooms *)

(** C9: with a complete configuration, [create_room] answers
    [{room: name, created: true}] both when the room-service call returns
    and when it raises an exception that passes the test of line 65, the
    duplicate error among them; and no successful answer is anything else. *)
Theorem C9_create_room_reports_created
    {World : Type} `{LiveKit World}
    (cfg : Config) (body : RoomCreateRequest) (st : State World) :
  (forall w',
     configured cfg = true ->
     sdk_create_room (rc_name body) (world st) = (Returned tt, w') ->
     create_room cfg body st
     = (Ok {| rr_room := rc_name body; rr_created := true |},
        mkState w' (trace st ++ [CreateRoomCall (rc_name body)]))) /\
  (forall str_exc w',
     configured cfg = true ->
     sdk_create_room (rc_name body) (world st) = (Raised str_exc, w') ->
     says_exists str_exc = true ->
     create_room cfg body st
     = (Ok {| rr_room := rc_name body; rr_created := true |},
        mkState w' (trace st ++ [CreateRoomCall (rc_name body)]))) /\
  match create_room cfg body st with
  | (Ok resp, _) => resp = {| rr_room := rc_name body; rr_created := true |}
  | (Raise _, _) => True
  end.
Proof.
  split; [|split].
  - intros w' Hc Hcall. rewrite (create_room_configured _ _ _ Hc).
    now rewrite (ensure_room_returned _ _ _ Hcall).
  - intros str_exc w' Hc Hcall Hs. rewrite (create_room_configured _ _ _ Hc).
    now rewrite (ensure_room_raised _ _ _ _ Hcall), Hs.
  - destruct (configured cfg) eqn:Hc.
    + rewrite (create_room_configured _ _ _ Hc).
      now destruct (_ensure_room (rc_name body) st) as [[[]|e] st1].
    + now rewrite (create_room_unconfigured _ _ _ Hc).
Qed.

Lemma C9_create_room_witness :
  create_room (load_config ∅) {| rc_name := "standup" |}
    (mkState ({["standup"]} : gset string) [])
  = (Ok {| rr_room := "standup"; rr_created := true |},
     mkState {["standup"]} [CreateRoomCall "standup"]) /\
  create_room (load_config ∅) {| rc_name := "standup" |} fresh_strict
  = (Ok {| rr_room := "standup"; rr_created := true |},
     mkState {["standup"]} [CreateRoomCall "standup"]).
Proof.
  assert (configured (load_config ∅) = true) as Hc by (vm_compute; reflexivity).
  split.
  - apply (proj1 (proj2 (C9_create_room_reports_created (load_config ∅)
                           {| rc_name := "standup" |}
                           (mkState ({["standup"]} : gset string) [])))
             "room already exists" {["standup"]} Hc).
    + vm_compute. reflexivity.
    + vm_compute. reflexivity.
  - apply (proj1 (C9_create_room_reports_created (load_config ∅)
                    {| rc_name := "standup" |} fresh_strict)
             {["standup"]} Hc).
    vm_compute. reflexivity.
Defined.

(** ** C10: the display name *)

(** C10: when the body leaves [name] out or gives it as the empty string,
    the access token is built with the identity as its display name; when
    the body gives a non-empty [name], with that name.  This is the token a
    successful POST /token has signed. *)
Theorem C10_display_name_falls_back
    {World : Type} `{LiveKit World}
    (cfg : Config) (b : TokenBody) (body : TokenRequest) (st : State World) :
  validate_TokenRequest b = inr body ->
  (json_name b = None \/ json_name b = Some "" ->
   at_name (token_for cfg body) = identity body) /\
  (forall n, json_name b = Some n -> n <> "" ->
             at_name (token_for cfg body) = n) /\
  match post_token cfg b st with
  | (Ok resp, st') =>
      last (trace st') = Some (SignCall (token_for cfg body)) /\
      exists w, sdk_to_jwt (token_for cfg body) w = Returned (resp_token resp)
  | (Raise _, _) => True
  end.
Proof.
  intros Hv.
  assert (name body = json_name b) as Hname.
  { unfold validate_TokenRequest in Hv.
    destruct (json_room b), (json_identity b); try discriminate Hv.
    now injection Hv as <-. }
  split; [|split].
  - unfold token_for. simpl. rewrite Hname. now intros [-> | ->].
  - intros n Hn Hne. unfold token_for. simpl. rewrite Hname, Hn. simpl.
    apply truthy_true in Hne. now rewrite Hne.
  - unfold post_token. rewrite Hv.
    destruct (get_token cfg body st) as [[resp|e] st'] eqn:Hg; [|trivial].
    apply get_token_ok_inv in Hg as (_ & st1 & _ & Hs & -> & _).
    simpl. split; [apply last_snoc | now exists (world st1)].
Qed.

Lemma C10_display_name_witness :
  at_name (token_for (load_config ∅)
             {| room := "standup"; identity := "u1"; name := Some "";
                auto_create_room := true |}) = "u1" /\
  at_name (token_for (load_config ∅)
             {| room := "standup"; identity := "u1"; name := Some "Ada";
                auto_create_room := true |}) = "Ada".
Proof.
  split.
  - apply (proj1 (C10_display_name_falls_back (load_config ∅)
                    {| json_room := Some "standup"; json_identity := Some "u1";
                       json_name := Some ""; json_auto_create_room := None |}
                    _ fresh_strict eq_refl)).
    right. reflexivity.
  - apply (proj1 (proj2 (C10_display_name_falls_back (load_config ∅)
                    {| json_room := Some "standup"; json_identity := Some "u1";
                       json_name := Some "Ada"; json_auto_create_room := None |}
                    _ fresh_strict eq_refl)) "Ada").
    + reflexivity.
    + discriminate.
Defined.

(** * Further properties of the token server *)

(** ** Every way [get_token] can end *)

Section GetTokenCases.
Context {World : Type} `{LiveKit World}.

(** The provisioning step of [get_token]: it adds [provisioning_calls] and
    raises nothing but the provisioning error, and that only with the
    flag on. *)
Lemma provisioning_step_inv (body : TokenRequest) (st : State World) r st1 :
  (if auto_create_room body then _ensure_room (room body) else ret tt) st
  = (r, st1) ->
  trace st1 = trace st ++ provisioning_calls body /\
  (r = Ok tt \/
   exists str_exc, auto_create_room body = true /\
                   says_exists str_exc = false /\
                   r = Raise (provisioning_error str_exc)).
Proof.
  unfold provisioning_calls. destruct (auto_create_room body).
  - intros He. apply ensure_room_inv in He as [Ht Hr]. split; [exact Ht|].
    destruct Hr as [->|(m & Hm & ->)]; eauto.
  - intros [= <- <-]. rewrite app_nil_r. auto.
Qed.

Lemma get_token_ends (cfg : Config) (body : TokenRequest) (st : State World) :
  get_token_end cfg body st (get_token cfg body st).
Proof.
  destruct (configured cfg) eqn:Hc.
  - rewrite (get_token_configured _ _ _ Hc).
    destruct ((if auto_create_room body
               then _ensure_room (room body) else ret tt) st)
      as [r st1] eqn:He.
    apply provisioning_step_inv in He as [Ht Hr].
    destruct Hr as [->|(m & Hauto & Hm & ->)].
    + cbv zeta.
      destruct (sdk_to_jwt (token_for cfg body) (world st1)) as [jwt|m] eqn:Hs.
      * now apply end_signed.
      * now apply end_signer_raised.
    + apply end_provisioning; auto.
      unfold provisioning_calls in Ht. now rewrite Hauto in Ht.
  - rewrite (get_token_unconfigured _ _ _ Hc). now apply end_unconfigured.
Qed.

End GetTokenCases.

(** ** The test on the exception text *)

(** X1: the test of line 65 is the second of its two disjuncts alone: it
    holds exactly when the lowered text of the exception has "exists"
    somewhere in it; looking for "already exists" first adds nothing. *)
Theorem X1_exists_test_is_one_search (str_exc : string) :
  says_exists str_exc = PyStr.contains "exists" (PyStr.lower str_exc) /\
  (says_exists str_exc = true <->
   PyStr.substring_of "exists" (PyStr.lower str_exc)).
Proof.
  split; [apply says_exists_lower|].
  rewrite says_exists_lower. apply contains_spec.
Qed.

(** X2: the test ignores letter case and position: whatever stands before
    and after it, a word that lowers to "exists" anywhere in the text makes
    [_ensure_room] treat the failure as a duplicate. *)
Theorem X2_exists_test_ignores_case (pre word post : string) :
  PyStr.lower word = "exists" ->
  says_exists (pre +:+ word +:+ post) = true.
Proof.
  intros Hw. rewrite says_exists_lower, !lower_app, Hw.
  apply contains_spec. now exists (PyStr.lower pre), (PyStr.lower post).
Qed.

Lemma X2_exists_test_witness :
  says_exists ("twirp error: room " +:+ "ExIsTs" +:+ " (409)") = true.
Proof.
  apply (X2_exists_test_ignores_case "twirp error: room " "ExIsTs" " (409)").
  vm_compute. reflexivity.
Defined.

(** ** [_ensure_room] *)


(** ** POST /rooms *)


(** ** POST /token *)


(** ** What gets signed *)

(** X6: [get_token] never signs with an empty key or an empty secret: every
    signer call it records carries a non-empty [api_key] and [api_secret],
    the configured ones, and every response it returns carries a non-empty
    [url]. *)
Theorem X6_never_signs_without_credentials
    {World : Type} `{LiveKit World}
    (cfg : Config) (body : TokenRequest) (st : State World) :
  (exists calls,
     trace (snd (get_token cfg body st)) = trace st ++ calls /\
     Forall signs_with_credentials calls) /\
  match fst (get_token cfg body st) with
  | Ok resp => resp_url resp <> "" /\ resp_url resp = LIVEKIT_URL cfg
  | Raise _ => True
  end.
Proof.
  assert (configured cfg = true ->
          signs_with_credentials (SignCall (token_for cfg body))) as Hsign.
  { intros Hc. apply configured_true_iff in Hc as (_ & Hk & Hs). now split. }
  assert (Forall signs_with_credentials (provisioning_calls body)) as Hprov.
  { unfold provisioning_calls. destruct (auto_create_room body);
      repeat constructor. }
  destruct (get_token_ends cfg body st)
    as [Hc|m st1 Hc Hauto Hm Ht|m st1 Hc Ht Hs|jwt st1 Hc Ht Hs]; simpl.
  - split; [|trivial]. exists []. rewrite app_nil_r. split; [easy|constructor].
  - split; [|trivial]. exists [CreateRoomCall (room body)].
    split; [exact Ht|repeat constructor].
  - split; [|trivial].
    exists (provisioning_calls body ++ [SignCall (token_for cfg body)]).
    rewrite Ht, app_assoc. split; [reflexivity|].
    apply Forall_app. split; [exact Hprov|]. repeat constructor; now apply Hsign.
  - split.
    + exists (provisioning_calls body ++ [SignCall (token_for cfg body)]).
      rewrite Ht, app_assoc. split; [reflexivity|].
      apply Forall_app. split; [exact Hprov|].
      repeat constructor; now apply Hsign.
    + split; [|reflexivity]. now apply configured_true_iff in Hc as (Hu & _).
Qed.

(** X7: the display name of the token is the given name or the identity,
    and it is empty only when the identity is: a participant with a
    non-empty identity always gets a non-empty display name. *)
Theorem X7_display_name_nonempty (cfg : Config) (body : TokenRequest) :
  identity body <> "" ->
  at_name (token_for cfg body) <> "" /\
  (at_name (token_for cfg body) = identity body \/
   Some (at_name (token_for cfg body)) = name body).
Proof.
  intros Hid. unfold token_for. simpl.
  destruct (name body) as [n|]; simpl; [|auto].
  destruct n; simpl; [auto|]. split; [discriminate|auto].
Qed.

Lemma X7_display_name_witness :
  at_name (token_for (load_config ∅)
             {| room := "standup"; identity := "u1"; name := Some "";
                auto_create_room := true |}) <> "".
Proof.
  apply (X7_display_name_nonempty (load_config ∅)
           {| room := "standup"; identity := "u1"; name := Some "";
              auto_create_room := true |}).
  discriminate.
Defined.

(** ** The handlers on a platform that refuses duplicates *)

(** X8: on a platform that refuses to create a room twice, with a complete
    configuration, POST /rooms succeeds from any state, and a POST /token
    for that room that follows it, flag on, is not stopped by the duplicate
    error: it reaches the signer, and when the signer returns it answers
    with the token. *)
Theorem X8_rooms_then_token
    {World : Type} `{DuplicateRejecting World}
    (cfg : Config) (body : TokenRequest) (st : State World) :
  configured cfg = true ->
  auto_create_room body = true ->
  exists st1 st2,
    create_room cfg {| rc_name := room body |} st
    = (Ok {| rr_room := room body; rr_created := true |}, st1) /\
    has_room (world st1) (room body) = true /\
    has_room (world st2) (room body) = true /\
    trace st2
    = trace st ++ [CreateRoomCall (room body); CreateRoomCall (room body);
                   SignCall (token_for cfg body)] /\
    get_token cfg body st1
    = (match sdk_to_jwt (token_for cfg body) (world st2) with
       | Returned jwt =>
           Ok {| resp_token := jwt; resp_url := LIVEKIT_URL cfg;
                 resp_identity := identity body; resp_room := room body |}
       | Raised str_exc => Raise (Exception str_exc)
       end, st2).
Proof.
  intros Hc Hauto.
  destruct (ensure_room_succeeds (room body) st) as (w1 & He1 & Hw1).
  set (st1 := mkState w1 (trace st ++ [CreateRoomCall (room body)])) in *.
  destruct (ensure_room_succeeds (room body) st1) as (w2 & He2 & Hw2).
  exists st1,
    (mkState w2 ((trace st1 ++ [CreateRoomCall (room body)])
                 ++ [SignCall (token_for cfg body)])).
  split; [|split; [exact Hw1|split; [exact Hw2|split]]].
  - rewrite (create_room_configured _ _ _ Hc). simpl rc_name. now rewrite He1.
  - simpl. now rewrite <- !app_assoc.
  - rewrite (get_token_configured _ _ _ Hc), Hauto, He2. cbv zeta. simpl.
    now destruct (sdk_to_jwt (token_for cfg body) w2).
Qed.

Lemma X8_rooms_then_token_witness :
  exists st1 st2,
    create_room (load_config ∅) {| rc_name := "standup" |} fresh_strict
    = (Ok {| rr_room := "standup"; rr_created := true |}, st1) /\
    get_token (load_config ∅) (standup_u1 true) st1
    = (Ok {| resp_token := "hs256.u1.devkey";
             resp_url := "ws://localhost:7880";
             resp_identity := "u1"; resp_room := "standup" |}, st2).
Proof.
  assert (configured (load_config ∅) = true) as Hc by (vm_compute; reflexivity).
  destruct (X8_rooms_then_token (load_config ∅) (standup_u1 true) fresh_strict
              Hc eq_refl) as (st1 & st2 & Hr & _ & _ & _ & Ht).
  exists st1, st2. split; [exact Hr|]. exact Ht.
Defined.

(** ** The configuration and the environment *)

(** X9: the configuration reads three variables and no other: setting or
    changing any other variable of the environment leaves it as it was, and
    setting [LIVEKIT_URL] changes the URL and nothing else. *)
Theorem X9_config_reads_three_variables
    (environ : gmap string string) (key value : string) :
  (key <> "LIVEKIT_URL" -> key <> "LIVEKIT_API_KEY" ->
   key <> "LIVEKIT_API_SECRET" ->
   load_config (<[key := value]> environ) = load_config environ) /\
  load_config (<["LIVEKIT_URL" := value]> environ)
  = {| LIVEKIT_URL := value;
       LIVEKIT_API_KEY := LIVEKIT_API_KEY (load_config environ);
       LIVEKIT_API_SECRET := LIVEKIT_API_SECRET (load_config environ) |}.
Proof.
  unfold load_config, getenv. split.
  - intros Hu Hk Hs. simpl. now rewrite !lookup_insert_ne by congruence.
  - simpl. rewrite lookup_insert_eq. now rewrite !lookup_insert_ne by discriminate.
Qed.

Lemma X9_config_witness :
  load_config (<["PORT" := "9000"]> empty_secret_environ)
  = load_config empty_secret_environ.
Proof.
  apply (proj1 (X9_config_reads_three_variables empty_secret_environ
                  "PORT" "9000")); discriminate.
Defined.

(** * Properties of the voice agent *)

Section AgentFacts.
Context {World : Type} `{AgentSDK World}.
Implicit Types (a : AgentState World) (r : raised).



Lemma perform_inv c a o a' :
  perform c a = (o, a') ->
  a_trace a' = a_trace a ++ [Called c] /\
  (o, a_world a') = sdk_call c (a_world a).
Proof.
  unfold perform. destruct (sdk_call c (a_world a)) as [o' w].
  now intros [= <- <-].
Qed.

(** What has happened when the code before the [try] is done: the events
    are calls and the opening log line; when nothing raised, the calls are
    the seven of [setup_calls]; when something did, they are the first few
    of them and the raising call is the last event. *)
Lemma setup_inv a o a1 :
  setup a = (o, a1) ->
  exists evs,
    a_trace a1 = a_trace a ++ evs /\
    Forall quiet_event evs /\
    match o with
    | None => calls_of evs = setup_calls
    | Some _ =>
        (exists rest, setup_calls = calls_of evs ++ rest) /\
        exists pre c, evs = pre ++ [Called c]
    end.
Proof.
  unfold setup, and_then, perform, log. simpl.
  repeat
    (match goal with
     | |- context [sdk_call ?c ?w] =>
         destruct (sdk_call c w) as [[?|] ?]; simpl
     end);
    intros [= <- <-]; simpl; rewrite <- ?app_assoc; simpl;
    (eexists; split; [reflexivity|]); 
    (split; [repeat constructor; discriminate|]);
    try reflexivity;
    (split; [eexists; reflexivity|]).
  - now exists [], Connect.
  - now exists [Called Connect; LogInfo session_starting],
      (NewAgent assistant_instructions).
  - eexists (_ :: _ :: _ :: []), _. reflexivity.
  - eexists (_ :: _ :: _ :: _ :: []), _. reflexivity.
  - eexists (_ :: _ :: _ :: _ :: _ :: []), _. reflexivity.
  - eexists (_ :: _ :: _ :: _ :: _ :: _ :: []), _. reflexivity.
  - eexists (_ :: _ :: _ :: _ :: _ :: _ :: _ :: []), _. reflexivity.
Qed.

(** The loop ends only on a sleep that raises, after at least one and at
    most [fuel] sleeps. *)
Lemma keep_running_inv fuel : forall a r a',
  keep_running fuel a = Some (r, a') ->
  exists n, (1 <= n <= fuel)%nat /\
            a_trace a' = a_trace a ++ map Called (replicate n (Sleep 1)).
Proof.
  induction fuel as [|fuel IH]; intros a r a'; simpl; [discriminate|].
  destruct (perform (Sleep 1) a) as [[r1|] a1] eqn:Hp;
    apply perform_inv in Hp as [Ht _].
  - intros [= <- <-]. exists 1%nat. split; [lia|exact Ht].
  - intros Hk. apply IH in Hk as (n & Hn & Hk).
    exists (S n). split; [lia|]. rewrite Hk, Ht, <- app_assoc. reflexivity.
Qed.

(** More fuel does not change an ending. *)
Lemma keep_running_more_fuel fuel : forall extra a res,
  keep_running fuel a = Some res ->
  keep_running (fuel + extra) a = Some res.
Proof.
  induction fuel as [|fuel IH]; intros extra a res; simpl; [discriminate|].
  destruct (perform (Sleep 1) a) as [[r1|] a1]; [trivial|]. apply IH.
Qed.

Lemma keep_running_calm fuel : forall a,
  (forall c w, fst (sdk_call c w) = None) ->
  keep_running fuel a = None.
Proof.
  induction fuel as [|fuel IH]; intros a Hcalm; simpl; [reflexivity|].
  unfold perform. pose proof (Hcalm (Sleep 1) (a_world a)) as Hsleep.
  destruct (sdk_call (Sleep 1) (a_world a)) as [o w]. simpl in Hsleep.
  subst o. now apply IH.
Qed.

(** The body of the [try] ends only on a raise; the events up to then are
    calls only, [session.start] first. *)
Lemma session_body_inv fuel a r a' :
  session_body fuel a = Some (r, a') ->
  exists cs n,
    a_trace a' = a_trace a ++ map Called (SessionStart :: cs) /\
    (n <= fuel)%nat /\
    exists rest, session_calls n = (SessionStart :: cs) ++ rest.
Proof.
  unfold session_body.
  destruct (perform SessionStart a) as [[r1|] a1] eqn:Hp1;
    apply perform_inv in Hp1 as [Ht1 _].
  - intros [= <- <-]. exists [], 0%nat. split; [exact Ht1|].
    split; [lia|]. now eexists.
  - destruct (perform (GenerateReply greeting_instructions) a1)
      as [[r2|] a2] eqn:Hp2; apply perform_inv in Hp2 as [Ht2 _].
    + intros [= <- <-]. exists [GenerateReply greeting_instructions], 0%nat.
      split; [|split; [lia|now exists []]].
      rewrite Ht2, Ht1, <- app_assoc. reflexivity.
    + intros Hk. apply keep_running_inv in Hk as (n & Hn & Hk).
      exists (GenerateReply greeting_instructions :: replicate n (Sleep 1)), n.
      split; [|split; [lia|exists []; now rewrite app_nil_r]].
      rewrite Hk, Ht2, Ht1, <- !app_assoc. reflexivity.
Qed.

End AgentFacts.

Section EntrypointEnds.
Context {World : Type} `{AgentSDK World}.
Implicit Types (a : AgentState World) (r : raised).

Lemma quiet_not_error (evs : list AgentEvent) :
  Forall quiet_event evs -> Forall not_error_line evs.
Proof.
  intros Hq. eapply Forall_impl; [exact Hq|]. now intros [c|msg|msg].
Qed.

Lemma called_not_error (cs : list Call) :
  Forall not_error_line (map Called cs).
Proof. induction cs; constructor; simpl; auto. Qed.

Lemma entrypoint_ends fuel a res :
  entrypoint fuel a = Some res -> entrypoint_end fuel a res.
Proof.
  unfold entrypoint. destruct (setup a) as [[r|] a1] eqn:Hs;
    apply setup_inv in Hs as Hinv; destruct Hinv as (evs & Ht & Hq & Hc).
  - intros [= <-]. destruct Hc as [Hpre _]. now apply end_in_setup with evs.
  - destruct (session_body fuel a1) as [[r a2]|] eqn:Hb; [|discriminate].
    apply session_body_inv in Hb as (cs & n & Ht2 & Hn & rest & Hrest).
    rewrite Ht, <- app_assoc in Ht2.
    destruct r as [m|m]; intros [= <-].
    + now apply end_swallowed with a1 evs cs n rest.
    + now apply end_passed_through with a1 evs cs n rest.
Qed.

Lemma entrypoint_more_fuel fuel extra a res :
  entrypoint fuel a = Some res -> entrypoint (fuel + extra) a = Some res.
Proof.
  unfold entrypoint, session_body. destruct (setup a) as [[r|] a1]; [trivial|].
  destruct (perform SessionStart a1) as [[r1|] a2]; [trivial|].
  destruct (perform (GenerateReply greeting_instructions) a2) as [[r2|] a3];
    [trivial|].
  destruct (keep_running fuel a3) as [res'|] eqn:Hk; [|discriminate].
  now rewrite (keep_running_more_fuel _ extra _ _ Hk).
Qed.

End EntrypointEnds.

(** X10: an exception raised while connecting or while building the
    assistant, the engines or the session, all of which happens before the
    [try], leaves the entry point as it is, whatever its kind.  By then
    [session.start] has not been called and neither an error line nor the
    closing line has been logged. *)
Theorem X10_setup_failure_propagates
    {World : Type} `{AgentSDK World}
    (fuel : nat) (a a1 : AgentState World) (r : raised) :
  setup a = (Some r, a1) ->
  entrypoint fuel a = Some (Propagates r, a1) /\
  exists evs, a_trace a1 = a_trace a ++ evs /\ Forall quiet_event evs.
Proof.
  intros Hs. split.
  - unfold entrypoint. now rewrite Hs.
  - apply setup_inv in Hs as (evs & Ht & Hq & _). now exists evs.
Qed.

Lemma X10_setup_failure_witness :
  exists a1,
    entrypoint 5 (replay [None; None; Some (PyException "api key missing")])
    = Some (Propagates (PyException "api key missing"), a1) /\
    exists evs, a_trace a1 = [] ++ evs /\ Forall quiet_event evs.
Proof.
  eexists.
  apply (X10_setup_failure_propagates 5
           (replay [None; None; Some (PyException "api key missing")])).
  vm_compute. reflexivity.
Defined.



(** X12: an exception leaves the entry point in one of two ways.  Either it
    was raised before the [try], and then nothing was logged about the end
    of the session.  Or it was raised inside the [try] and is not an
    [Exception] (a cancellation, say): then the closing line is still the
    last thing logged, and no error line is. *)
Theorem X12_closing_line_on_cancellation
    {World : Type} `{AgentSDK World}
    (fuel : nat) (a a' : AgentState World) (r : raised) :
  entrypoint fuel a = Some (Propagates r, a') ->
  exists evs,
    a_trace a' = a_trace a ++ evs /\
    Forall not_error_line evs /\
    ((Forall quiet_event evs /\ fst (setup a) = Some r) \/
     (exists str_exc before,
        r = PyBaseException str_exc /\
        fst (setup a) = None /\
        evs = before ++ [LogInfo session_ended] /\
        In (Called SessionStart) before)).
Proof.
  intros He. pose proof (entrypoint_ends _ _ _ He) as Hend.
  inversion Hend
    as [r' a1 evs Hs Ht Hq Hc
       | | m a1 a2 evs cs n rest Hs Ht Hq Hc Hn Hrest]; subst.
  - exists evs. split; [exact Ht|]. split; [now apply quiet_not_error|].
    left. split; [exact Hq|]. now rewrite Hs.
  - exists ((evs ++ map Called (SessionStart :: cs)) ++ [LogInfo session_ended]).
    assert (Forall not_error_line (evs ++ map Called (SessionStart :: cs)))
      as Hne.
    { apply Forall_app.
      split; [now apply quiet_not_error|apply called_not_error]. }
    split; [|split].
    + simpl. rewrite Ht, <- !app_assoc. reflexivity.
    + apply Forall_app. split; [exact Hne|]. now repeat constructor.
    + right. exists m, (evs ++ map Called (SessionStart :: cs)).
      repeat split.
      * now rewrite Hs.
      * apply in_or_app. right. now left.
Qed.

Lemma X12_closing_line_witness :
  exists a' evs,
    entrypoint 3 (replay (replay_until (PyBaseException "cancelled")))
    = Some (Propagates (PyBaseException "cancelled"), a') /\
    a_trace a' = [] ++ evs /\
    Forall not_error_line evs.
Proof.
  assert (exists a',
            entrypoint 3 (replay (replay_until (PyBaseException "cancelled")))
            = Some (Propagates (PyBaseException "cancelled"), a'))
    as [a' Hrun] by (eexists; vm_compute; reflexivity).
  destruct (X12_closing_line_on_cancellation 3 _ a' _ Hrun)
    as (evs & Ht & Hne & _).
  exists a', evs. split; [exact Hrun|]. split; [exact Ht|exact Hne].
Defined.

(** X13: the entry point has no normal way out.  In a world in which no
    call ever raises it is still running after any number of sleeps. *)
Theorem X13_runs_until_something_raises
    {World : Type} `{AgentSDK World}
    (fuel : nat) (a : AgentState World) :
  (forall c w, fst (sdk_call c w) = None) ->
  entrypoint fuel a = None.
Proof.
  intros Hcalm.
  assert (forall c b, fst (perform c b) = None) as Hperform.
  { intros c b. unfold perform. specialize (Hcalm c (a_world b)).
    now destruct (sdk_call c (a_world b)). }
  assert (forall c k b, and_then c k b = k (snd (perform c b))) as Hthen.
  { intros c k b. unfold and_then. specialize (Hperform c b).
    destruct (perform c b) as [o b']. simpl in *. now subst o. }
  unfold entrypoint, setup, session_body. rewrite !Hthen.
  repeat match goal with
         | |- context [perform ?c ?b] =>
             let o := fresh "o" in
             let b' := fresh "b" in
             let Hp := fresh "Hp" in
             pose proof (Hperform c b) as Hp;
             destruct (perform c b) as [o b']; simpl in Hp; subst o; simpl
         end.
  now rewrite keep_running_calm.
Qed.

Lemma X13_runs_witness :
  entrypoint 1000 (mkAgentState tt []) = None.
Proof.
  apply (X13_runs_until_something_raises 1000 (mkAgentState tt [])).
  intros c w. reflexivity.
Defined.


